(** * PlanningAgent: a shallow embedding of [src/PlanningAgent.py]

    The Python class [PlanningAgent] keeps a log [history] of executed
    steps and a clamped [success_rate]; its methods validate a goal,
    expand it into three steps, run every step as a Bernoulli trial
    against the process-wide generator of the [random] module, pick the
    failed steps, and summarise the log.

    Conventions of the embedding:
    - a Python [str] is the list of its code points;
    - a Python [int] is a [Z];
    - a Python [float] is [Py.float]: a finite double, given by the rational
      it is equal to, an infinity or NaN.  Comparisons are the exact ones
      of Python.  A decimal literal and the true division of two ints are
      the double nearest to the number written, respectively to the
      quotient ([Py.round_double], ties to even);
    - a method is a computation in the monad [M]: it receives the world
      (the instance [self] and the generator of [random]) and gives back a
      result or a raised exception together with the world after the call. *)

From Stdlib Require Import ZArith QArith Lia Ascii String.
From stdpp Require Import base tactics option list.

Open Scope Z_scope.

(** ** Python values *)

Module Py.

(** [str]: a sequence of Unicode code points. *)
Definition codepoint := N.
Definition str := list codepoint.

(** A string literal of the source (all of them are ASCII). *)
Definition lit (s : string) : str :=
  List.map N_of_ascii (list_ascii_of_string s).

(** [float]. *)
Inductive float :=
| Fin (q : Q)
| PosInf
| NegInf
| NaN.

(** [a < b] on floats: false as soon as one side is NaN. *)
Definition float_lt (a b : float) : bool :=
  match a, b with
  | NaN, _ | _, NaN => false
  | Fin x, Fin y => negb (Qle_bool y x)
  | NegInf, (Fin _ | PosInf) => true
  | Fin _, PosInf => true
  | _, _ => false
  end.

(** Rounding to the nearest integer, ties to even, of [n / d] for
    [0 <= n] and [0 < d]. *)
Definition round_half_even (n d : Z) : Z :=
  let q := n / d in
  let r := n mod d in
  if 2 * r <? d then q
  else if d <? 2 * r then q + 1
  else if Z.even q then q else q + 1.

(** The binary exponent of [n / d] for [0 < n] and [0 < d]: the [k] with
    [2 ^ k <= n / d < 2 ^ (k + 1)]. *)
Definition ilog2 (n d : Z) : Z :=
  let k := Z.log2 n - Z.log2 d in
  if (if 0 <=? k then d * 2 ^ k <=? n else d <=? n * 2 ^ (- k))
  then k else k - 1.

(** The double nearest to [n / d] for [0 < n] and [0 < d] (IEEE 754
    binary64, round to nearest, ties to even): a significand of 53 bits
    above [2 ^ -1022], multiples of [2 ^ -1074] below, infinity from
    [2 ^ 1024 - 2 ^ 970] on. *)
Definition round_pos (n d : Z) : float :=
  let e := Z.max (ilog2 n d - 52) (-1074) in
  if 0 <=? e then
    let m := round_half_even n (d * 2 ^ e) in
    if (971 <? e) || ((e =? 971) && (m =? 2 ^ 53)) then PosInf
    else Fin (inject_Z (m * 2 ^ e))
  else
    let m := round_half_even (n * 2 ^ (- e)) d in
    Fin (Qred (m # Z.to_pos (2 ^ (- e)))).

Definition float_neg (f : float) : float :=
  match f with
  | Fin q => Fin (- q)
  | PosInf => NegInf
  | NegInf => PosInf
  | NaN => NaN
  end.

(** The double nearest to a rational: the value of a decimal literal of
    the source, and of the true division of two ints. *)
Definition round_double (q : Q) : float :=
  match Qnum q with
  | 0 => Fin 0
  | Z.pos n => round_pos (Z.pos n) (Z.pos (Qden q))
  | Z.neg n => float_neg (round_pos (Z.pos n) (Z.pos (Qden q)))
  end.

(** [a > b] is [b < a]. *)
Definition float_gt (a b : float) : bool := float_lt b a.

(** The builtins [min(a, b)] and [max(a, b)]: the first argument is kept
    unless the second one is strictly smaller (strictly greater). *)
Definition min (a b : float) : float := if float_lt b a then b else a.
Definition max (a b : float) : float := if float_gt b a then b else a.

(** The objects that can reach an untyped parameter. *)
Inductive object :=
| None_
| Bool (b : bool)
| Int (z : Z)
| Float (f : float)
| Str (s : str).

(** Truth value of an object, as [not x] and [if x] test it. *)
Definition truthy (x : object) : bool :=
  match x with
  | None_ => false
  | Bool b => b
  | Int z => negb (z =? 0)
  | Float (Fin q) => negb (Qeq_bool q 0)
  | Float _ => true
  | Str s => match s with [] => false | _ :: _ => true end
  end.

(** [isinstance(x, str)]. *)
Definition isinstance_str (x : object) : bool :=
  match x with Str _ => true | _ => false end.

(** [str.isspace] on one code point: the code points whose Unicode
    property is White_Space or whose bidirectional class is WS, B or S
    (the table of CPython's [_PyUnicode_IsWhitespace]). *)
Definition isspace (c : codepoint) : bool :=
  ((9 <=? c) && (c <=? 13) || (28 <=? c) && (c <=? 32)
   || (c =? 133) || (c =? 160) || (c =? 5760)
   || (8192 <=? c) && (c <=? 8202)
   || (c =? 8232) || (c =? 8233) || (c =? 8239) || (c =? 8287)
   || (c =? 12288))%N.

(** [s.lstrip()], [s.rstrip()] and [s.strip()] without argument. *)
Fixpoint lstrip (s : str) : str :=
  match s with
  | [] => []
  | c :: s' => if isspace c then lstrip s' else s
  end.

Definition rstrip (s : str) : str := reverse (lstrip (reverse s)).

Definition strip (s : str) : str := rstrip (lstrip s).

(** Exceptions: the one the program raises, and the one an attribute
    lookup raises on an object that lacks the attribute. *)
Inductive exn :=
| ValueError (msg : str)
| AttributeError (msg : str).

(** [x.strip()] on an arbitrary object. *)
Definition strip_method (x : object) : exn + str :=
  match x with
  | Str s => inr (strip s)
  | _ => inl (AttributeError (lit "object has no attribute 'strip'"))
  end.

End Py.

(** ** The world of a call, and the monad of methods *)

(** The generator behind [random.random()]: the samples it will hand out,
    and how many it has handed out so far. *)
Record RandomSource := mkRandomSource {
  samples : nat -> Q;
  cursor : nat
}.

(** The instance attributes set by [__init__]. *)
Record PlanningAgent := mkPlanningAgent {
  history : list (Py.str * bool);
  success_rate : Py.float
}.

Record World := mkWorld {
  self : PlanningAgent;
  random : RandomSource
}.

Inductive result (A : Type) :=
| Return (a : A)
| Raise (e : Py.exn).
Arguments Return {A} a.
Arguments Raise {A} e.

Definition M (A : Type) : Type := World -> result A * World.

Definition raise {A} (e : Py.exn) : M A := fun w => (Raise e, w).

#[global] Instance M_ret : MRet M := fun A (a : A) (w : World) => (Return a, w).

#[global] Instance M_bind : MBind M :=
  fun A B (k : A -> M B) (m : M A) (w : World) =>
    match m w with
    | (Return a, w') => k a w'
    | (Raise e, w') => (Raise e, w')
    end.

(** What a call gives back, and the world it leaves. *)
Definition outcome {A} (m : M A) (w : World) : result A := fst (m w).
Definition world_after {A} (m : M A) (w : World) : World := snd (m w).

(** [self.history] and [self.success_rate] read in a method body. *)
Definition get_history : M (list (Py.str * bool)) :=
  fun w => (Return (history (self w)), w).

Definition get_success_rate : M Py.float :=
  fun w => (Return (success_rate (self w)), w).

(** [self.history.extend(xs)]: the list object is mutated in place. *)
Definition history_extend (xs : list (Py.str * bool)) : M unit :=
  fun w =>
    (Return tt,
     mkWorld (mkPlanningAgent (history (self w) ++ xs) (success_rate (self w)))
             (random w)).

(** [random.random()]: the next sample of the generator, as a float. *)
Definition random_random : M Py.float :=
  fun w =>
    let g := random w in
    (Return (Py.Fin (samples g (cursor g))),
     mkWorld (self w) (mkRandomSource (samples g) (S (cursor g)))).

(** The contract of [random.random()]: every sample lies in [0, 1). *)
Definition unit_samples (g : RandomSource) : Prop :=
  forall i, (0 <= samples g i /\ samples g i < 1)%Q.

(** ** The class [PlanningAgent] *)

(** [__init__(self, success_rate=0.7)]; [None] stands for the omitted
    argument.  The constructor yields the fresh instance.  The default is
    the literal [0.7] of the signature: the double nearest to 7/10. *)
Definition default_success_rate : Py.float := Py.round_double (7 # 10).

Definition __init__ (success_rate : option Py.float) : PlanningAgent :=
  let success_rate := default default_success_rate success_rate in
  mkPlanningAgent [] (Py.max (Py.Fin 0) (Py.min (Py.Fin 1) success_rate)).

Definition goal_error : Py.exn :=
  Py.ValueError (Py.lit "Goal must be a non-empty string").

(** [perceive_goal(self, goal)].  The tests of the guard are tried from left
    to right and [goal.strip()] is evaluated only when the first two have
    let the object through. *)
Definition perceive_goal (goal : Py.object) : M Py.str :=
  if negb (Py.truthy goal) || negb (Py.isinstance_str goal)
  then raise goal_error
  else
    match Py.strip_method goal with
    | inl e => raise e
    | inr stripped =>
        if negb (Py.truthy (Py.Str stripped)) then raise goal_error
        else mret stripped
    end.

(** [plan(self, goal)]. *)
Definition plan (goal : Py.str) : M (list Py.str) :=
  mret [ Py.lit "Research " ++ goal;
        Py.lit "Draft outline for " ++ goal;
        Py.lit "Create final output for " ++ goal ].

(** The comprehension of [act]: one sample is drawn for every step, in
    the order of the steps. *)
Fixpoint act_results (steps : list Py.str) : M (list (Py.str * bool)) :=
  match steps with
  | [] => mret []
  | step :: steps' =>
      r ← random_random;
      p ← get_success_rate;
      rest ← act_results steps';
      mret ((step, Py.float_lt r p) :: rest)
  end.

(** [act(self, steps)]. *)
Definition act (steps : list Py.str) : M (list (Py.str * bool)) :=
  results ← act_results steps;
  history_extend results;;
  mret results.

(** The comprehension of [reflect]. *)
Fixpoint retries_of (results : list (Py.str * bool)) : list Py.str :=
  match results with
  | [] => []
  | (step, success) :: results' =>
      if negb success then step :: retries_of results' else retries_of results'
  end.

(** [reflect(self, results)]. *)
Definition reflect (results : list (Py.str * bool)) : M (list Py.str) :=
  let retries := retries_of results in
  mret retries.

(** The dictionary returned by [get_execution_summary]: its four keys. *)
Record Summary := mkSummary {
  total : Z;
  successful : Z;
  failed : Z;
  summary_success_rate : Py.float
}.

(** [len(xs)]. *)
Definition len {A} (xs : list A) : Z := Z.of_nat (length xs).

(** [sum(1 for _, success in xs if success)]. *)
Fixpoint sum_successes (xs : list (Py.str * bool)) : Z :=
  match xs with
  | [] => 0
  | (_, success) :: xs' =>
      if success then 1 + sum_successes xs' else sum_successes xs'
  end.

(** [a / b] on two ints, for [b > 0]: the quotient, correctly rounded to
    a double.  (An infinite result stands for the [OverflowError] of a
    quotient too large for a float; the program divides a count by a
    length that is at least as large.) *)
Definition truediv (a b : Z) : Py.float := Py.round_double (a # Z.to_pos b).

(** [get_execution_summary(self)]. *)
Definition get_execution_summary : M Summary :=
  h ← get_history;
  match h with
  | [] => mret (mkSummary 0 0 0 (Py.Fin 0))
  | _ :: _ =>
      let total := len h in
      let successful := sum_successes h in
      let failed := total - successful in
      let success_rate := if total >? 0 then truediv successful total
                          else Py.Fin 0 in
      mret (mkSummary total successful failed success_rate)
  end.

(** The script at the end of the module, without its printing: the five
    methods in a row on one goal. *)
Definition main (goal : Py.object)
  : M (list (Py.str * bool) * list Py.str * Summary) :=
  goal ← perceive_goal goal;
  steps ← plan goal;
  results ← act steps;
  retries ← reflect results;
  summary ← get_execution_summary;
  mret (results, retries, summary).

(** ** The public interface as a transition system *)

(** One call of a public method by the owner of the instance. *)
Inductive call :=
| PerceiveGoal (goal : Py.object)
| Plan (goal : Py.str)
| Act (steps : list Py.str)
| Reflect (results : list (Py.str * bool))
| GetExecutionSummary.

Definition is_act (c : call) : bool :=
  match c with Act _ => true | _ => false end.

(** The world after a call; a raised exception is caught by the caller and
    leaves the world as the method left it. *)
Definition step (c : call) (w : World) : World :=
  match c with
  | PerceiveGoal goal => world_after (perceive_goal goal) w
  | Plan goal => world_after (plan goal) w
  | Act steps => world_after (act steps) w
  | Reflect results => world_after (reflect results) w
  | GetExecutionSummary => world_after get_execution_summary w
  end.

Definition run (cs : list call) (w : World) : World :=
  foldl (fun w c => step c w) w cs.

(** The worlds an instance built by [PlanningAgent(arg)] can be in. *)
Inductive reachable (arg : option Py.float) : World -> Prop :=
| reachable_new (g : RandomSource) :
    reachable arg (mkWorld (__init__ arg) g)
| reachable_call (c : call) (w : World) :
    reachable arg w -> reachable arg (step c w).

(** A fresh instance next to a generator that always answers [r]. *)
Definition fresh (arg : option Py.float) (r : Q) : World :=
  mkWorld (__init__ arg) (mkRandomSource (fun _ => r) 0).

(** ** Vocabulary of the specification *)

(** The generator after [n] more draws. *)
Definition advance (n : nat) (g : RandomSource) : RandomSource :=
  mkRandomSource (samples g) (cursor g + n)%nat.

(** The Bernoulli trial of the step at position [i] of a call of [act]:
    it is decided by the [i]-th sample that follows the cursor. *)
Definition trial (p : Py.float) (g : RandomSource) (i : nat) (step : Py.str)
  : Py.str * bool :=
  (step, Py.float_lt (Py.Fin (samples g (cursor g + i)%nat)) p).

Definition trials (p : Py.float) (g : RandomSource) (steps : list Py.str)
  : list (Py.str * bool) :=
  imap (trial p g) steps.

(** A code point sequence made of white space only (the empty one too). *)
Definition blank (s : Py.str) : Prop := Forall (fun c => Py.isspace c = true) s.

(** [t] is [g] without its leading and trailing white space. *)
Definition trimmed_of (g t : Py.str) : Prop :=
  exists pre post,
    g = pre ++ t ++ post /\ blank pre /\ blank post /\
    (forall c, head t = Some c -> Py.isspace c = false) /\
    (forall c, last t = Some c -> Py.isspace c = false).

(** The results that failed, and those that succeeded. *)
Definition has_failed (r : Py.str * bool) : Prop := r.2 = false.
Definition has_succeeded (r : Py.str * bool) : Prop := r.2 = true.

#[global] Instance has_failed_dec r : Decision (has_failed r).
Proof. unfold has_failed. apply _. Defined.

#[global] Instance has_succeeded_dec r : Decision (has_succeeded r).
Proof. unfold has_succeeded. apply _. Defined.

(** The clamp of the constructor. *)
Definition clamp (f : Py.float) : Py.float :=
  Py.max (Py.Fin 0) (Py.min (Py.Fin 1) f).

(** Equality of floats as numbers. *)
Definition float_is (f : Py.float) (q : Q) : Prop :=
  match f with Py.Fin x => (x == q)%Q | _ => False end.

(** The steps handed to [act] along a sequence of calls, in call order. *)
Definition acted_steps (cs : list call) : list Py.str :=
  cs ≫= (fun c => match c with Act steps => steps | _ => [] end).

(** A code point that is no white space. *)
Definition visible (c : Py.codepoint) : Prop := Py.isspace c = false.

(** ** Comparison and clamping of floats *)

Section Floats.

Lemma float_lt_Fin (x y : Q) :
  Py.float_lt (Py.Fin x) (Py.Fin y) = true <-> (x < y)%Q.
Proof.
  simpl. rewrite negb_true_iff, <- not_true_iff_false, Qle_bool_iff.
  split; [apply Qnot_le_lt | apply Qlt_not_le].
Qed.

Lemma float_lt_Fin_false (x y : Q) :
  Py.float_lt (Py.Fin x) (Py.Fin y) = false <-> (y <= x)%Q.
Proof. simpl. rewrite negb_false_iff. apply Qle_bool_iff. Qed.

Lemma clamp_below (x : Q) : (x <= 0)%Q -> clamp (Py.Fin x) = Py.Fin 0.
Proof.
  intros Hx. unfold clamp, Py.min, Py.max, Py.float_gt.
  assert (Hlt : Py.float_lt (Py.Fin x) (Py.Fin 1) = true).
  { apply float_lt_Fin. eapply Qle_lt_trans; [exact Hx | reflexivity]. }
  rewrite Hlt.
  assert (Hge : Py.float_lt (Py.Fin 0) (Py.Fin x) = false)
    by (apply float_lt_Fin_false; exact Hx).
  now rewrite Hge.
Qed.

Lemma clamp_above (x : Q) : (1 <= x)%Q -> clamp (Py.Fin x) = Py.Fin 1.
Proof.
  intros Hx. unfold clamp, Py.min, Py.max, Py.float_gt.
  assert (Hge : Py.float_lt (Py.Fin x) (Py.Fin 1) = false)
    by (apply float_lt_Fin_false; exact Hx).
  rewrite Hge. reflexivity.
Qed.

Lemma clamp_inside (x : Q) : (0 < x)%Q -> (x < 1)%Q -> clamp (Py.Fin x) = Py.Fin x.
Proof.
  intros H0 H1. unfold clamp, Py.min, Py.max, Py.float_gt.
  apply float_lt_Fin in H0, H1. now rewrite H1, H0.
Qed.

(** Whatever float reaches the constructor, the stored rate is a real
    number of the unit interval. *)
Lemma clamp_unit (f : Py.float) :
  exists q, clamp f = Py.Fin q /\ (0 <= q)%Q /\ (q <= 1)%Q.
Proof.
  destruct f as [x| | |].
  - destruct (Qlt_le_dec 0 x) as [H0|H0]; [destruct (Qlt_le_dec x 1) as [H1|H1]|].
    + exists x. rewrite clamp_inside by assumption.
      auto using Qlt_le_weak.
    + exists 1%Q. rewrite clamp_above by assumption. repeat split; discriminate.
    + exists 0%Q. rewrite clamp_below by assumption. repeat split; discriminate.
  - exists 1%Q. repeat split; discriminate.
  - exists 0%Q. repeat split; discriminate.
  - exists 1%Q. repeat split; discriminate.
Qed.

End Floats.

(** ** Rounding to a double *)

Section Rounding.

(** The rounded quotient is at most half a unit away from the quotient. *)
Lemma round_half_even_near (n d : Z) :
  0 <= n -> 0 < d ->
  0 <= Py.round_half_even n d /\
  - d <= 2 * (Py.round_half_even n d * d - n) <= d.
Proof.
  intros Hn Hd. unfold Py.round_half_even.
  pose proof (Z.div_mod n d ltac:(lia)) as Hdiv.
  pose proof (Z.mod_pos_bound n d Hd) as Hmod.
  pose proof (Z.div_pos n d Hn Hd) as Hq.
  destruct (Z.ltb_spec (2 * (n mod d)) d); [split; nia|].
  destruct (Z.ltb_spec d (2 * (n mod d))); [split; nia|].
  destruct (Z.even (n / d)); split; nia.
Qed.

(** Rounding does not cross an integer. *)
Lemma round_half_even_le (n d M : Z) :
  0 <= n -> 0 < d -> n <= M * d -> Py.round_half_even n d <= M.
Proof.
  intros Hn Hd HM. unfold Py.round_half_even.
  pose proof (Z.div_mod n d ltac:(lia)) as Hdiv.
  pose proof (Z.mod_pos_bound n d Hd) as Hmod.
  assert (Hq : n / d <= M) by (apply Z.div_le_upper_bound; lia).
  assert (Hlt : 0 < n mod d -> n / d < M) by nia.
  destruct (Z.ltb_spec (2 * (n mod d)) d); [exact Hq|].
  destruct (Z.ltb_spec d (2 * (n mod d))); [lia|].
  destruct (Z.even (n / d)); lia.
Qed.

Lemma ilog2_le (n d : Z) :
  0 < n -> n <= d -> Py.ilog2 n d <= 0 /\ (n < d -> Py.ilog2 n d <= -1).
Proof.
  intros Hn Hd. unfold Py.ilog2.
  pose proof (Z.log2_le_mono n d Hd) as Hlog.
  set (k := Z.log2 n - Z.log2 d). assert (Hk : k <= 0) by (unfold k; lia).
  destruct (Z.leb_spec 0 k) as [H0|H0].
  - assert (k = 0) as -> by lia. rewrite Z.pow_0_r, Z.mul_1_r.
    destruct (Z.leb_spec d n); lia.
  - destruct (d <=? n * 2 ^ (- k)); lia.
Qed.

(** The true division of [a] by [b] for [0 <= a <= b]: a double of
    [0, 1], within [2 ^ -54] of the quotient, and the quotient itself at
    the two ends. *)
Lemma truediv_near (a b : Z) :
  0 <= a <= b -> 0 < b ->
  exists q,
    truediv a b = Py.Fin q /\
    (0 <= q)%Q /\ (q <= 1)%Q /\
    (a # Z.to_pos b <= q + (1 # 18014398509481984))%Q /\
    (q <= (a # Z.to_pos b) + (1 # 18014398509481984))%Q /\
    (a = 0 -> q = 0%Q) /\
    (a = b -> q = 1%Q).
Proof.
  intros [Ha Hab] Hb. unfold truediv, Py.round_double. cbn [Qnum Qden].
  destruct a as [|p|p]; [|clear Ha|lia].
  - exists 0%Q. split; [reflexivity|].
    repeat split; try discriminate; try reflexivity; intros <-; lia.
  - rewrite Z2Pos.id by exact Hb. unfold Py.round_pos.
    destruct (ilog2_le (Z.pos p) b ltac:(lia) Hab) as [Hk Hk'].
    set (k := Py.ilog2 (Z.pos p) b) in *.
    set (e := Z.max (k - 52) (-1074)).
    assert (He : -1074 <= e <= -52) by (unfold e; lia).
    assert (He' : Z.pos p < b -> e <= -53) by (unfold e; lia).
    destruct (Z.leb_spec 0 e) as [|_]; [lia|].
    set (P := 2 ^ (- e)).
    assert (HP : 4503599627370496 <= P)
      by (change 4503599627370496 with (2 ^ 52); apply Z.pow_le_mono_r; lia).
    assert (HP' : Z.pos p < b -> 9007199254740992 <= P).
    { intros Hlt. change 9007199254740992 with (2 ^ 53).
      apply Z.pow_le_mono_r; [lia|]. specialize (He' Hlt). lia. }
    set (m := Py.round_half_even (Z.pos p * P) b).
    destruct (round_half_even_near (Z.pos p * P) b ltac:(nia) Hb) as [Hm0 Hm].
    pose proof (round_half_even_le (Z.pos p * P) b P ltac:(nia) Hb ltac:(nia))
      as HmP.
    fold m in Hm0, Hm, HmP.
    exists (Qred (m # Z.to_pos P)). split; [reflexivity|].
    assert (HPpos : Z.pos (Z.to_pos P) = P) by (apply Z2Pos.id; lia).
    assert (Hbpos : Z.pos (Z.to_pos b) = b) by (apply Z2Pos.id; lia).
    assert (Heq : Z.pos p = b -> m = P).
    { intros E. unfold m. rewrite E. unfold Py.round_half_even.
      replace (b * P) with (P * b) by lia.
      rewrite Z.div_mul, Z.mod_mul by lia.
      destruct (Z.ltb_spec (2 * 0) b); [reflexivity | lia]. }
    split; [|split; [|split; [|split; [|split]]]].
    + rewrite Qred_correct. unfold Qle. cbn [Qnum Qden]. lia.
    + rewrite Qred_correct. unfold Qle. cbn [Qnum Qden]. rewrite HPpos. lia.
    + rewrite Qred_correct. unfold Qle, Qplus. cbn [Qnum Qden].
      rewrite !Pos2Z.inj_mul, HPpos, Hbpos.
      destruct (Z.eq_dec (Z.pos p) b) as [E|NE].
      * rewrite (Heq E), E. nia.
      * specialize (HP' ltac:(lia)). nia.
    + rewrite Qred_correct. unfold Qle, Qplus. cbn [Qnum Qden].
      rewrite !Pos2Z.inj_mul, HPpos, Hbpos.
      destruct (Z.eq_dec (Z.pos p) b) as [E|NE].
      * rewrite (Heq E), E. nia.
      * specialize (HP' ltac:(lia)). nia.
    + discriminate.
    + intros E. rewrite (Heq E). change 1%Q with (Qred 1).
      apply Qred_complete. unfold Qeq. cbn [Qnum Qden]. rewrite HPpos. lia.
Qed.

End Rounding.

(** ** Stripping white space *)

Section Strip.

Lemma lstrip_split (s : Py.str) :
  exists pre, s = pre ++ Py.lstrip s /\ blank pre.
Proof.
  induction s as [|c s [pre [Hs Hpre]]]; simpl.
  - exists []. split; [reflexivity | constructor].
  - destruct (Py.isspace c) eqn:Hc.
    + exists (c :: pre). split; [simpl; congruence | now constructor].
    + exists []. split; [reflexivity | constructor].
Qed.

Lemma lstrip_head (s : Py.str) (c : Py.codepoint) :
  head (Py.lstrip s) = Some c -> Py.isspace c = false.
Proof.
  induction s as [|d s IH]; simpl; [discriminate|].
  destruct (Py.isspace d) eqn:Hd; [exact IH|].
  simpl. intros [= <-]. exact Hd.
Qed.

Lemma lstrip_blank (s : Py.str) : blank s <-> Py.lstrip s = [].
Proof.
  induction s as [|c s IH]; simpl.
  - split; [reflexivity | constructor].
  - destruct (Py.isspace c) eqn:Hc.
    + rewrite <- IH. split; [now inversion 1 | now constructor].
    + split; [|discriminate]. inversion 1; congruence.
Qed.

Lemma blank_reverse (s : Py.str) : blank s <-> blank (reverse s).
Proof. unfold blank. now rewrite Forall_reverse. Qed.

Lemma rstrip_split (s : Py.str) :
  exists post, s = Py.rstrip s ++ post /\ blank post.
Proof.
  unfold Py.rstrip. destruct (lstrip_split (reverse s)) as [pre [Hs Hpre]].
  exists (reverse pre). split; [|exact (proj1 (blank_reverse pre) Hpre)].
  rewrite <- reverse_app, <- Hs. now rewrite reverse_involutive.
Qed.

Lemma rstrip_last (s : Py.str) (c : Py.codepoint) :
  last (Py.rstrip s) = Some c -> Py.isspace c = false.
Proof.
  unfold Py.rstrip. rewrite last_reverse. apply lstrip_head.
Qed.

(** Stripping on the right keeps a first character that is no white space. *)
Lemma rstrip_head (s : Py.str) (c : Py.codepoint) :
  (forall d, head s = Some d -> Py.isspace d = false) ->
  head (Py.rstrip s) = Some c -> Py.isspace c = false.
Proof.
  intros Hs Hc. destruct (rstrip_split s) as [post [Heq _]].
  apply Hs. rewrite Heq. destruct (Py.rstrip s); [discriminate | exact Hc].
Qed.

Lemma strip_trimmed (g : Py.str) : trimmed_of g (Py.strip g).
Proof.
  destruct (lstrip_split g) as [pre [Hg Hpre]].
  destruct (rstrip_split (Py.lstrip g)) as [post [Hl Hpost]].
  exists pre, post. unfold Py.strip. repeat split; try assumption.
  - now rewrite <- Hl.
  - intros c. apply rstrip_head. apply lstrip_head.
  - apply rstrip_last.
Qed.

Lemma strip_blank (g : Py.str) : blank g <-> Py.strip g = [].
Proof.
  unfold Py.strip, Py.rstrip. split.
  - intros Hg. apply lstrip_blank in Hg. now rewrite Hg.
  - intros Hs. apply (f_equal reverse) in Hs.
    rewrite reverse_involutive, reverse_nil in Hs.
    apply lstrip_blank in Hs. apply (proj2 (blank_reverse _)) in Hs.
    destruct (lstrip_split g) as [pre [Hg Hpre]]. rewrite Hg.
    apply Forall_app; split; assumption.
Qed.

End Strip.

(** ** Equations of the methods *)

Section Methods.

Lemma advance_0 (g : RandomSource) : advance 0 g = g.
Proof. destruct g. unfold advance. simpl. now rewrite Nat.add_0_r. Qed.

Lemma advance_S (n : nat) (g : RandomSource) :
  advance n (mkRandomSource (samples g) (S (cursor g))) = advance (S n) g.
Proof. unfold advance. simpl. f_equal. lia. Qed.

Lemma trials_cons p g step steps :
  trials p g (step :: steps) =
  (step, Py.float_lt (Py.Fin (samples g (cursor g))) p)
    :: trials p (mkRandomSource (samples g) (S (cursor g))) steps.
Proof.
  unfold trials. rewrite imap_cons. f_equal.
  - unfold trial. now rewrite Nat.add_0_r.
  - apply imap_ext. intros i x _. unfold trial. simpl.
    now rewrite Nat.add_succ_r.
Qed.

Lemma trials_fst p g steps : (trials p g steps).*1 = steps.
Proof.
  revert g. induction steps as [|step steps IH]; intros g; [reflexivity|].
  rewrite trials_cons. simpl. now rewrite IH.
Qed.

Lemma trials_length p g steps : length (trials p g steps) = length steps.
Proof. unfold trials. apply length_imap. Qed.

Lemma trials_lookup p g steps i step :
  steps !! i = Some step -> trials p g steps !! i = Some (trial p g i step).
Proof. intros H. unfold trials. rewrite list_lookup_imap, H. reflexivity. Qed.

(** The comprehension of [act] consumes one sample per step and touches
    nothing else. *)
Lemma act_results_eq (steps : list Py.str) (w : World) :
  act_results steps w =
  (Return (trials (success_rate (self w)) (random w) steps),
   mkWorld (self w) (advance (length steps) (random w))).
Proof.
  revert w. induction steps as [|step steps IH]; intros w.
  - simpl. rewrite advance_0. now destruct w.
  - cbn [act_results]. unfold mbind, M_bind, mret, M_ret.
    unfold random_random at 1. unfold get_success_rate. cbn beta iota zeta.
    rewrite IH. cbn [self random samples cursor].
    rewrite trials_cons, advance_S. reflexivity.
Qed.

Lemma act_eq (steps : list Py.str) (w : World) :
  let results := trials (success_rate (self w)) (random w) steps in
  act steps w =
  (Return results,
   mkWorld (mkPlanningAgent (history (self w) ++ results)
                            (success_rate (self w)))
           (advance (length steps) (random w))).
Proof.
  unfold act, mbind, M_bind, mret, M_ret. rewrite act_results_eq.
  reflexivity.
Qed.

Lemma perceive_goal_world goal w : world_after (perceive_goal goal) w = w.
Proof.
  unfold world_after, perceive_goal.
  destruct (negb (Py.truthy goal) || negb (Py.isinstance_str goal));
    [reflexivity|].
  destruct (Py.strip_method goal) as [e|stripped]; [reflexivity|].
  destruct (negb _); reflexivity.
Qed.

Lemma get_execution_summary_world w :
  world_after get_execution_summary w = w.
Proof.
  unfold world_after, get_execution_summary, mbind, M_bind, get_history.
  destruct (history (self w)); reflexivity.
Qed.

Lemma retries_of_filter (results : list (Py.str * bool)) :
  retries_of results = (filter has_failed results).*1.
Proof.
  induction results as [|[step success] results IH]; [reflexivity|].
  cbn [retries_of]. rewrite filter_cons, IH.
  destruct (decide (has_failed (step, success))) as [H|H];
    unfold has_failed in H; cbn [snd] in H; destruct success;
    try reflexivity; congruence.
Qed.

Lemma sum_successes_filter (xs : list (Py.str * bool)) :
  sum_successes xs = len (filter has_succeeded xs).
Proof.
  unfold len. induction xs as [|[step success] xs IH]; [reflexivity|].
  cbn [sum_successes]. rewrite filter_cons, IH.
  destruct (decide (has_succeeded (step, success))) as [H|H];
    unfold has_succeeded in H; cbn [snd] in H; destruct success;
    try congruence; cbn [length]; lia.
Qed.

(** What every call does to the log and to the rate. *)
Lemma step_history (c : call) (w : World) :
  history (self (step c w)) =
  match c with
  | Act steps =>
      history (self w) ++ trials (success_rate (self w)) (random w) steps
  | _ => history (self w)
  end.
Proof.
  destruct c; simpl.
  - now rewrite perceive_goal_world.
  - reflexivity.
  - unfold world_after. now rewrite act_eq.
  - reflexivity.
  - now rewrite get_execution_summary_world.
Qed.

Lemma step_success_rate (c : call) (w : World) :
  success_rate (self (step c w)) = success_rate (self w).
Proof.
  destruct c; simpl.
  - now rewrite perceive_goal_world.
  - reflexivity.
  - unfold world_after. now rewrite act_eq.
  - reflexivity.
  - now rewrite get_execution_summary_world.
Qed.

Lemma step_not_act (c : call) (w : World) : is_act c = false -> step c w = w.
Proof.
  destruct c; simpl; intros H; try discriminate H.
  - apply perceive_goal_world.
  - reflexivity.
  - reflexivity.
  - apply get_execution_summary_world.
Qed.

Lemma reachable_success_rate arg w :
  reachable arg w ->
  success_rate (self w) = clamp (default default_success_rate arg).
Proof.
  induction 1 as [g|c w _ IH]; [reflexivity|].
  now rewrite step_success_rate.
Qed.

(** The stored rate of a reachable world is a real number of [0, 1],
    whatever was handed to the constructor. *)
Lemma reachable_probability arg w :
  reachable arg w ->
  exists p, success_rate (self w) = Py.Fin p /\ (0 <= p)%Q /\ (p <= 1)%Q.
Proof.
  intros Hw. rewrite (reachable_success_rate arg w Hw). apply clamp_unit.
Qed.

Lemma run_not_act (cs : list call) (w : World) :
  Forall (fun c => is_act c = false) cs -> run cs w = w.
Proof.
  unfold run. induction 1 as [|c cs Hc _ IH]; [reflexivity|].
  simpl. now rewrite (step_not_act c w Hc).
Qed.

Lemma run_history_prefix (cs : list call) (w : World) :
  history (self w) `prefix_of` history (self (run cs w)).
Proof.
  unfold run. revert w. induction cs as [|c cs IH]; intros w; [reflexivity|].
  simpl. etrans; [|apply IH]. rewrite step_history.
  destruct c; try reflexivity. apply prefix_app_r. reflexivity.
Qed.

End Methods.

(** ** The properties of the specification *)

(** C1: [act] draws one sample of the generator per step, in the order of
    the steps; the result at position [i] carries the step at position [i]
    and is marked succeeded exactly when the [i]-th sample drawn by the call
    is strictly less than the configured probability [p]; the generator is
    left advanced by one sample per step.  (That the samples are independent
    and uniform is the contract of the generator, not a fact of the code.) *)
Theorem act_one_trial_per_step (steps : list Py.str) (w : World) (p : Q) :
  success_rate (self w) = Py.Fin p ->
  exists results,
    outcome (act steps) w = Return results /\
    results.*1 = steps /\
    (forall i step, steps !! i = Some step ->
       exists b, results !! i = Some (step, b) /\
         (b = true <->
          (samples (random w) (cursor (random w) + i)%nat < p)%Q)) /\
    random (world_after (act steps) w) = advance (length steps) (random w).
Proof.
  intros Hp. exists (trials (Py.Fin p) (random w) steps).
  unfold outcome, world_after. rewrite act_eq, Hp. cbn [fst snd random].
  split; [reflexivity|]. split; [apply trials_fst|]. split; [|reflexivity].
  intros i step Hi.
  exists (Py.float_lt (Py.Fin (samples (random w) (cursor (random w) + i)%nat))
                      (Py.Fin p)).
  split; [now apply trials_lookup | apply float_lt_Fin].
Qed.

Lemma act_one_trial_per_step_witness :
  exists results,
    outcome (act [Py.lit "a"; Py.lit "b"])
            (mkWorld (mkPlanningAgent [] (Py.Fin (1 # 2)))
                     (mkRandomSource (fun i => if Nat.even i then 1 # 4 else 3 # 4) 0))
    = Return results /\ results.*2 = [true; false].
Proof.
  destruct (act_one_trial_per_step
              [Py.lit "a"; Py.lit "b"]
              (mkWorld (mkPlanningAgent [] (Py.Fin (1 # 2)))
                       (mkRandomSource (fun i => if Nat.even i then 1 # 4 else 3 # 4) 0))
              (1 # 2) eq_refl) as [results [Hr _]].
  exists results. split; [exact Hr|].
  vm_compute in Hr. injection Hr as <-. reflexivity.
Defined.

(** C2: a call of [act] never raises and returns one result per step; the
    log after the call is the log before it followed by exactly the
    returned results, in their order; the
    stored success probability is untouched; and on the empty sequence the
    call returns the empty list and leaves the whole world as it was. *)
Theorem act_extends_history (steps : list Py.str) (w : World) :
  (exists results,
     outcome (act steps) w = Return results /\
     length results = length steps /\
     history (self (world_after (act steps) w)) = history (self w) ++ results /\
     success_rate (self (world_after (act steps) w)) = success_rate (self w)) /\
  outcome (act []) w = Return [] /\
  world_after (act []) w = w.
Proof.
  unfold outcome, world_after. rewrite !act_eq. cbn [fst snd self history].
  split; [|split; [reflexivity|]].
  - eexists. split; [reflexivity|]. split; [apply trials_length|].
    split; reflexivity.
  - cbn [trials imap length success_rate]. rewrite app_nil_r, advance_0.
    destruct w as [[h p] g]. reflexivity.
Qed.

(** C3: in every reachable world [get_execution_summary] returns a summary
    with [successful + failed = total = len(history)], where [successful]
    counts the entries of the log that succeeded.  When [total > 0] the
    rate is [successful / total], Python's true division of the two ints:
    the double nearest to the quotient, hence within [2 ^ -54] of it, and
    exactly [0.0] and [1.0] when nothing, respectively everything,
    succeeded.  Otherwise the rate is [0.0]; on an empty log the summary is
    [{0, 0, 0, 0.0}]. *)
Theorem summary_invariant (arg : option Py.float) (w : World) :
  reachable arg w ->
  exists s,
    outcome get_execution_summary w = Return s /\
    successful s + failed s = total s /\
    total s = len (history (self w)) /\
    successful s = len (filter has_succeeded (history (self w))) /\
    (0 < total s ->
     summary_success_rate s = truediv (successful s) (total s) /\
     exists q,
       summary_success_rate s = Py.Fin q /\
       (inject_Z (successful s) / inject_Z (total s)
          <= q + (1 # 18014398509481984))%Q /\
       (q <= inject_Z (successful s) / inject_Z (total s)
               + (1 # 18014398509481984))%Q /\
       (successful s = 0 -> q = 0%Q) /\
       (successful s = total s -> q = 1%Q)) /\
    (total s <= 0 -> summary_success_rate s = Py.Fin 0) /\
    (history (self w) = [] -> s = mkSummary 0 0 0 (Py.Fin 0)).
Proof.
  intros _. unfold outcome, get_execution_summary, mbind, M_bind, get_history.
  destruct (history (self w)) as [|r h] eqn:Hh.
  - eexists. split; [reflexivity|]. cbn -[Qdiv Qplus Qle truediv].
    repeat split; lia.
  - set (xs := r :: h). eexists. split; [reflexivity|].
    cbn [total successful failed summary_success_rate].
    assert (Hpos : 0 < len xs) by (unfold len, xs; cbn [length]; lia).
    split; [lia|]. split; [reflexivity|].
    split; [apply sum_successes_filter|].
    apply Z.gtb_lt in Hpos as Hgt. rewrite Hgt.
    split; [|split; [lia | discriminate]].
    intros _. split; [reflexivity|].
    assert (Hb : 0 <= sum_successes xs <= len xs).
    { rewrite sum_successes_filter. unfold len.
      pose proof (length_filter has_succeeded xs). lia. }
    destruct (truediv_near _ _ Hb Hpos) as (q & Hq & _ & _ & Hlo & Hhi & H0 & H1).
    exists q. split; [exact Hq|].
    assert (Hdiv : (inject_Z (sum_successes xs) / inject_Z (len xs)
                    == sum_successes xs # Z.to_pos (len xs))%Q).
    { rewrite (Qmake_Qdiv (sum_successes xs) (Z.to_pos (len xs))).
      now rewrite Z2Pos.id by exact Hpos. }
    rewrite Hdiv. repeat split; assumption.
Qed.

Lemma summary_invariant_witness :
  exists s,
    outcome get_execution_summary
            (step (Act [Py.lit "a"; Py.lit "b"; Py.lit "c"])
                  (mkWorld (__init__ (Some (Py.Fin (1 # 2))))
                           (mkRandomSource
                              (fun i => if Nat.even i then 1 # 4 else 3 # 4) 0)))
    = Return s /\
    total s = 3 /\ successful s = 2 /\ failed s = 1 /\
    summary_success_rate s = Py.Fin (6004799503160661 # 9007199254740992).
Proof.
  destruct (summary_invariant
              (Some (Py.Fin (1 # 2)))
              (step (Act [Py.lit "a"; Py.lit "b"; Py.lit "c"])
                    (mkWorld (__init__ (Some (Py.Fin (1 # 2))))
                             (mkRandomSource
                                (fun i => if Nat.even i then 1 # 4 else 3 # 4) 0)))
              (reachable_call _ _ _ (reachable_new _ _)))
    as [s [Hs _]].
  exists s. split; [exact Hs|].
  vm_compute in Hs. injection Hs as <-. repeat split.
Defined.

(** C4: [perceive_goal] leaves the world as it was.  On a [str] that holds
    more than white space it returns the string without its leading and
    trailing white space, which is not empty; on a [str] that is empty or
    white space only, and on every object that is not a [str] ([None]
    included), it raises the [ValueError] of the method. *)
Theorem perceive_goal_validates (goal : Py.object) (w : World) :
  world_after (perceive_goal goal) w = w /\
  match goal with
  | Py.Str g =>
      (~ blank g ->
       exists t,
         outcome (perceive_goal goal) w = Return t /\
         trimmed_of g t /\ t <> [] /\ t = Py.strip g) /\
      (blank g -> outcome (perceive_goal goal) w = Raise goal_error)
  | _ => outcome (perceive_goal goal) w = Raise goal_error
  end.
Proof.
  split; [apply perceive_goal_world|].
  unfold outcome, perceive_goal.
  destruct goal as [|b|z|f|g]; cbn [Py.isinstance_str negb];
    rewrite ?orb_true_r; try reflexivity.
  rewrite orb_false_r. cbn [Py.strip_method]. split.
  - intros Hnb.
    assert (Hne : Py.strip g <> [])
      by (intros Hs; apply Hnb; now apply strip_blank).
    exists (Py.strip g).
    split; [|split; [apply strip_trimmed | split; [exact Hne | reflexivity]]].
    assert (Hg : g <> []) by (intros ->; now apply Hne).
    destruct g as [|c g]; [congruence|]. cbn [Py.truthy negb].
    destruct (Py.strip (c :: g)); [congruence | reflexivity].
  - intros Hb. apply strip_blank in Hb. rewrite Hb.
    destruct (negb (Py.truthy (Py.Str g))); reflexivity.
Qed.

(** C5: [reflect] returns the steps of the results whose flag is false, in
    their original order (a sub-sequence of the steps it was given); it
    leaves the world as it was and its answer does not depend on the world. *)
Theorem reflect_failed_steps (results : list (Py.str * bool)) (w : World) :
  outcome (reflect results) w = Return (filter has_failed results).*1 /\
  (filter has_failed results).*1 `sublist_of` results.*1 /\
  world_after (reflect results) w = w /\
  (forall w', outcome (reflect results) w' = outcome (reflect results) w).
Proof.
  unfold outcome, world_after, reflect. cbn [mret M_ret fst snd].
  rewrite retries_of_filter. repeat split.
  apply fmap_sublist, sublist_filter.
Qed.

(** C6: [plan] returns exactly three steps, the goal prefixed by
    ["Research "], ["Draft outline for "] and ["Create final output for "],
    in that order; it leaves the world as it was and its answer does not
    depend on the world. *)
Theorem plan_three_steps (goal : Py.str) (w : World) :
  exists steps,
    outcome (plan goal) w = Return steps /\
    length steps = 3%nat /\
    steps = [ Py.lit "Research " ++ goal;
              Py.lit "Draft outline for " ++ goal;
              Py.lit "Create final output for " ++ goal ] /\
    world_after (plan goal) w = w /\
    (forall w', outcome (plan goal) w' = outcome (plan goal) w).
Proof. eexists. repeat split. Qed.

(** C7: the constructor stores [0.0] for a real argument below 0, [1.0] for
    one above 1, and the argument itself for one of the unit interval; with
    no argument it stores the float [0.7] of the signature, which is the
    double 3152519739159347 / 2^52 nearest to 7/10; the log of a fresh
    instance is empty. *)
Theorem init_clamps_success_rate :
  (forall x : Q, (x < 0)%Q ->
     success_rate (__init__ (Some (Py.Fin x))) = Py.Fin 0) /\
  (forall x : Q, (1 < x)%Q ->
     success_rate (__init__ (Some (Py.Fin x))) = Py.Fin 1) /\
  (forall x : Q, (0 <= x)%Q -> (x <= 1)%Q ->
     float_is (success_rate (__init__ (Some (Py.Fin x)))) x) /\
  success_rate (__init__ None) = Py.round_double (7 # 10) /\
  success_rate (__init__ None)
    = Py.Fin (3152519739159347 # 4503599627370496) /\
  (forall arg, history (__init__ arg) = []).
Proof.
  split; [|split; [|split; [|split; [|split]]]].
  - intros x Hx. apply clamp_below. now apply Qlt_le_weak.
  - intros x Hx. apply clamp_above. now apply Qlt_le_weak.
  - intros x H0 H1. change (float_is (clamp (Py.Fin x)) x).
    destruct (Qlt_le_dec 0 x) as [H0'|H0'];
      [destruct (Qlt_le_dec x 1) as [H1'|H1']|].
    + rewrite clamp_inside by assumption. simpl. reflexivity.
    + rewrite clamp_above by assumption. simpl. now apply Qle_antisym.
    + rewrite clamp_below by assumption. simpl. now apply Qle_antisym.
  - vm_compute. reflexivity.
  - vm_compute. reflexivity.
  - reflexivity.
Qed.

(** C8: the log is append-only: whatever public method is called, in
    whatever world, the log before the call is a prefix of the log after it;
    every method other than [act] leaves the log as it was; hence no
    sequence of calls clears the log or rolls it back. *)
Theorem history_append_only (c : call) (w : World) :
  history (self w) `prefix_of` history (self (step c w)) /\
  (is_act c = false -> history (self (step c w)) = history (self w)) /\
  (forall cs, history (self w) `prefix_of` history (self (run cs w))).
Proof.
  split; [|split].
  - apply (run_history_prefix [c]).
  - intros Hc. now rewrite step_not_act.
  - intros cs. apply run_history_prefix.
Qed.

(** C9: [get_execution_summary] is a pure read: it leaves the world as it
    was, so a second call in a row returns what the first one did, and so
    does a call made after any calls of the methods other than [act]. *)
Theorem summary_pure_read (w : World) :
  world_after get_execution_summary w = w /\
  outcome get_execution_summary (world_after get_execution_summary w) =
    outcome get_execution_summary w /\
  (forall cs, Forall (fun c => is_act c = false) cs ->
     outcome get_execution_summary (run cs w) =
       outcome get_execution_summary w).
Proof.
  split; [apply get_execution_summary_world|]. split.
  - now rewrite get_execution_summary_world.
  - intros cs Hcs. now rewrite run_not_act.
Qed.

(** C10: with samples drawn from [0, 1), an instance built with success
    probability [1.0] marks every step of every call of [act] succeeded, and
    one built with [0.0] marks every step failed. *)
Theorem act_certain_outcome (sure : bool) (w : World) (steps : list Py.str) :
  reachable (Some (Py.Fin (if sure then 1 else 0))) w ->
  unit_samples (random w) ->
  exists results,
    outcome (act steps) w = Return results /\
    results.*1 = steps /\
    Forall (fun r => r.2 = sure) results.
Proof.
  intros Hw Hg. apply reachable_success_rate in Hw.
  change (success_rate (self w) = clamp (Py.Fin (if sure then 1 else 0))) in Hw.
  exists (trials (success_rate (self w)) (random w) steps).
  unfold outcome. rewrite act_eq. cbn [fst].
  split; [reflexivity|]. split; [apply trials_fst|].
  apply Forall_forall. intros r Hr.
  apply list_elem_of_lookup in Hr as [i Hi]. unfold trials in Hi.
  rewrite list_lookup_imap in Hi.
  destruct (steps !! i) as [step|]; [|discriminate].
  injection Hi as <-. unfold trial. cbn [snd]. rewrite Hw.
  destruct (Hg (cursor (random w) + i)%nat) as [H0 H1].
  destruct sure; cbn iota.
  - rewrite clamp_above by apply Qle_refl. now apply float_lt_Fin.
  - rewrite clamp_below by apply Qle_refl. now apply float_lt_Fin_false.
Qed.

Lemma act_certain_outcome_witness :
  exists results,
    outcome (act [Py.lit "Research x"; Py.lit "Draft outline for x"])
            (mkWorld (__init__ (Some (Py.Fin 1)))
                     (mkRandomSource (fun _ => 999 # 1000) 0))
    = Return results /\
    results.*2 = [true; true].
Proof.
  destruct (act_certain_outcome
              true
              (mkWorld (__init__ (Some (Py.Fin 1)))
                       (mkRandomSource (fun _ => 999 # 1000) 0))
              [Py.lit "Research x"; Py.lit "Draft outline for x"]
              (reachable_new _ _)
              (fun _ => conj (ltac:(discriminate) : (0 <= 999 # 1000)%Q)
                             (eq_refl : (999 # 1000 < 1)%Q)))
    as [results [Hr _]].
  exists results. split; [exact Hr|].
  vm_compute in Hr. injection Hr as <-. reflexivity.
Defined.

(** ** Scenarios *)

Section Scenarios.

Let goal : Py.str := Py.lit "Write AI blog post".
Let steps : list Py.str :=
  [ Py.lit "Research Write AI blog post";
    Py.lit "Draft outline for Write AI blog post";
    Py.lit "Create final output for Write AI blog post" ].

Example strip_spaces :
  Py.strip (Py.lit "  Write AI blog post ") = goal.
Proof. reflexivity. Qed.

Example perceive_goal_blank :
  outcome (perceive_goal (Py.Str (Py.lit "   "))) (fresh None 0)
  = Raise goal_error.
Proof. reflexivity. Qed.

Example perceive_goal_none :
  outcome (perceive_goal Py.None_) (fresh None 0) = Raise goal_error.
Proof. reflexivity. Qed.

Example perceive_goal_int :
  outcome (perceive_goal (Py.Int 5)) (fresh None 0) = Raise goal_error.
Proof. reflexivity. Qed.

(** Success probability 1.0, samples 0.0: all three steps succeed. *)
Example main_all_succeed :
  outcome (main (Py.Str goal)) (fresh (Some (Py.Fin 1)) 0)
  = Return ([ (steps !!! 0%nat, true); (steps !!! 1%nat, true);
              (steps !!! 2%nat, true) ],
            [],
            mkSummary 3 3 0 (Py.Fin 1)).
Proof. reflexivity. Qed.

(** Success probability 0.0: all three steps fail and are to be retried. *)
Example main_all_fail :
  outcome (main (Py.Str goal)) (fresh (Some (Py.Fin 0)) 0)
  = Return ([ (steps !!! 0%nat, false); (steps !!! 1%nat, false);
              (steps !!! 2%nat, false) ],
            steps,
            mkSummary 3 0 3 (Py.Fin 0)).
Proof. reflexivity. Qed.

(** Arguments of the constructor out of the unit interval, and the
    arguments that are no real numbers. *)
Example init_negative :
  success_rate (__init__ (Some (Py.Fin (- 1 # 2)))) = Py.Fin 0.
Proof. reflexivity. Qed.

Example init_large :
  success_rate (__init__ (Some (Py.Fin (17 # 10)))) = Py.Fin 1.
Proof. reflexivity. Qed.

Example init_nan : success_rate (__init__ (Some Py.NaN)) = Py.Fin 1.
Proof. reflexivity. Qed.

Example init_infinities :
  success_rate (__init__ (Some Py.PosInf)) = Py.Fin 1 /\
  success_rate (__init__ (Some Py.NegInf)) = Py.Fin 0.
Proof. split; reflexivity. Qed.

(** Two calls of [act] accumulate in the log, and the calls in between
    do not change the summary. *)
Example summary_after_two_acts :
  outcome get_execution_summary
          (run [Act steps; Reflect []; Act [goal]; GetExecutionSummary]
               (fresh (Some (Py.Fin (1 # 2))) (1 # 4)))
  = Return (mkSummary 4 4 0 (Py.Fin 1)).
Proof. reflexivity. Qed.

(** Floats are doubles: one success out of three gives the double nearest
    to 1/3, and the default rate is the double written [0.7], so that a
    sample equal to it fails the strict comparison. *)
Example summary_one_of_three :
  outcome get_execution_summary
          (mkWorld (mkPlanningAgent [ (goal, true); (goal, false); (goal, false) ]
                                    (Py.Fin 1))
                   (mkRandomSource (fun _ => 0%Q) 0))
  = Return (mkSummary 3 1 2 (Py.Fin (6004799503160661 # 18014398509481984))).
Proof. vm_compute. reflexivity. Qed.

Example act_default_rate_boundary :
  outcome (act [goal]) (fresh None (3152519739159347 # 4503599627370496))
  = Return [ (goal, false) ] /\
  outcome (act [goal]) (fresh None (3152519739159346 # 4503599627370496))
  = Return [ (goal, true) ].
Proof. split; vm_compute; reflexivity. Qed.

End Scenarios.

(** ** Further properties of the methods *)

(** *** Goals *)

Section Goals.

Lemma lstrip_app_blank (pre s : Py.str) :
  blank pre -> Py.lstrip (pre ++ s) = Py.lstrip s.
Proof.
  induction 1 as [|c pre Hc _ IH]; [reflexivity|].
  cbn [app Py.lstrip]. now rewrite Hc.
Qed.

Lemma lstrip_visible_head (s : Py.str) :
  (forall c, head s = Some c -> Py.isspace c = false) -> Py.lstrip s = s.
Proof.
  destruct s as [|c s]; [reflexivity|]. intros H.
  cbn [Py.lstrip]. now rewrite (H c eq_refl).
Qed.

Lemma rstrip_app_blank (s post : Py.str) :
  blank post -> Py.rstrip (s ++ post) = Py.rstrip s.
Proof.
  intros Hpost. unfold Py.rstrip. rewrite reverse_app.
  rewrite lstrip_app_blank; [reflexivity|].
  exact (proj1 (blank_reverse post) Hpost).
Qed.

Lemma rstrip_visible_last (s : Py.str) :
  (forall c, last s = Some c -> Py.isspace c = false) -> Py.rstrip s = s.
Proof.
  intros H. unfold Py.rstrip. rewrite lstrip_visible_head.
  - apply reverse_involutive.
  - intros c. rewrite head_reverse. apply H.
Qed.

(** What [strip] returns is determined by [trimmed_of]. *)
Lemma trimmed_of_strip (g t : Py.str) : trimmed_of g t -> Py.strip g = t.
Proof.
  intros (pre & post & -> & Hpre & Hpost & Hhead & Hlast).
  unfold Py.strip. rewrite lstrip_app_blank by exact Hpre.
  destruct t as [|c t].
  - cbn [app]. apply (proj1 (lstrip_blank post)) in Hpost as Hl.
    rewrite Hl. reflexivity.
  - rewrite lstrip_visible_head.
    + rewrite rstrip_app_blank by exact Hpost.
      now apply rstrip_visible_last.
    + cbn [app head]. intros d [= <-]. now apply Hhead.
Qed.

(** The method on a [str], in one equation. *)
Lemma perceive_goal_Str (g : Py.str) (w : World) :
  perceive_goal (Py.Str g) w =
  (match Py.strip g with
   | [] => Raise goal_error
   | _ :: _ => Return (Py.strip g)
   end, w).
Proof.
  unfold perceive_goal. cbn [Py.isinstance_str Py.strip_method negb].
  rewrite orb_false_r.
  destruct g as [|c g]; [reflexivity|]. cbn [Py.truthy negb].
  destruct (Py.strip (c :: g)); reflexivity.
Qed.

Lemma perceive_goal_not_Str (goal : Py.object) (w : World) :
  Py.isinstance_str goal = false ->
  perceive_goal goal w = (Raise goal_error, w).
Proof.
  intros H. unfold perceive_goal. rewrite H. cbn [negb].
  now rewrite orb_true_r.
Qed.

Lemma not_blank_visible (g : Py.str) : ~ blank g <-> Exists visible g.
Proof.
  unfold blank, visible. split.
  - intros H. apply not_Forall_Exists in H; [|intros c; apply _].
    eapply Exists_impl; [exact H|]. intros c Hc. cbn in Hc.
    now destruct (Py.isspace c).
  - intros H Hall. apply Exists_exists in H as (c & Hin & Hc).
    apply (proj1 (Forall_forall _ _) Hall) in Hin. congruence.
Qed.

End Goals.

(** X1: white space around a goal is dropped: for every goal [t] that is
    not empty and neither starts nor ends with white space, and every white
    space [pre] and [post], [perceive_goal(pre + t + post)] returns [t]. *)
Theorem perceive_goal_strips_padding (pre t post : Py.str) (w : World) :
  blank pre -> blank post -> t <> [] ->
  (forall c, head t = Some c -> Py.isspace c = false) ->
  (forall c, last t = Some c -> Py.isspace c = false) ->
  outcome (perceive_goal (Py.Str (pre ++ t ++ post))) w = Return t.
Proof.
  intros Hpre Hpost Ht Hhead Hlast. unfold outcome.
  rewrite perceive_goal_Str.
  rewrite (trimmed_of_strip (pre ++ t ++ post) t)
    by (exists pre, post; repeat split; assumption).
  destruct t; [congruence | reflexivity].
Qed.

Lemma perceive_goal_strips_padding_witness :
  outcome (perceive_goal (Py.Str (Py.lit "  " ++ Py.lit "a b" ++ Py.lit " ")))
          (fresh None 0)
  = Return (Py.lit "a b").
Proof.
  apply (perceive_goal_strips_padding (Py.lit "  ") (Py.lit "a b") (Py.lit " ")).
  - repeat constructor.
  - repeat constructor.
  - discriminate.
  - intros c [= <-]. reflexivity.
  - intros c [= <-]. reflexivity.
Defined.

(** X2: a validated goal is a fixed point of the validation: whatever
    [perceive_goal] returns is returned unchanged when it is passed to
    [perceive_goal] again, in any world. *)
Theorem perceive_goal_idempotent (goal : Py.object) (t : Py.str) (w w' : World) :
  outcome (perceive_goal goal) w = Return t ->
  outcome (perceive_goal (Py.Str t)) w' = Return t.
Proof.
  unfold outcome. intros H.
  destruct goal as [|b|z|f|g];
    try (rewrite perceive_goal_not_Str in H by reflexivity; discriminate H).
  rewrite perceive_goal_Str in H. rewrite perceive_goal_Str.
  assert (Hs : Py.strip g = t /\ t <> []).
  { destruct (Py.strip g) as [|c s]; cbn [fst] in H; [discriminate H|].
    injection H as <-. split; [reflexivity | discriminate]. }
  destruct Hs as [<- Hne].
  assert (Hfix : Py.strip (Py.strip g) = Py.strip g).
  { apply trimmed_of_strip. destruct (strip_trimmed g)
      as (_ & _ & _ & _ & _ & Hhead & Hlast).
    exists [], []. rewrite app_nil_r. repeat split; try assumption; constructor. }
  rewrite Hfix. destruct (Py.strip g); [congruence | reflexivity].
Qed.

Lemma perceive_goal_idempotent_witness :
  outcome (perceive_goal (Py.Str (Py.lit "Write AI blog post")))
          (fresh (Some (Py.Fin 1)) 0)
  = Return (Py.lit "Write AI blog post").
Proof.
  apply (perceive_goal_idempotent
           (Py.Str (Py.lit " Write AI blog post  "))
           (Py.lit "Write AI blog post")
           (fresh None 0)).
  reflexivity.
Defined.

(** X3: [perceive_goal] accepts exactly the [str] objects that hold a code
    point that is no white space; on every other object it raises the
    [ValueError] of the method (and never an [AttributeError]); what it
    returns is never empty. *)
Theorem perceive_goal_accepts_visible (goal : Py.object) (w : World) :
  ((exists t, outcome (perceive_goal goal) w = Return t) <->
   (exists g, goal = Py.Str g /\ Exists visible g)) /\
  ((forall g, goal = Py.Str g -> ~ Exists visible g) ->
   outcome (perceive_goal goal) w = Raise goal_error) /\
  outcome (perceive_goal goal) w <> Return [].
Proof.
  unfold outcome.
  destruct goal as [|b|z|f|g];
    try (rewrite perceive_goal_not_Str by reflexivity; cbn [fst];
         split; [split; [intros [t Ht]; discriminate Ht
                        | intros (g & Hg & _); discriminate Hg]
                | split; [reflexivity | discriminate]]).
  rewrite perceive_goal_Str. cbn [fst].
  pose proof (strip_blank g) as Hb. pose proof (not_blank_visible g) as Hv.
  destruct (Py.strip g) as [|c s] eqn:Hs.
  - assert (Hblank : blank g) by now apply Hb.
    split; [split|split].
    + intros [t Ht]. discriminate Ht.
    + intros (g' & [= <-] & Hex). exfalso. now apply Hv in Hex.
    + reflexivity.
    + discriminate.
  - assert (Hnb : ~ blank g) by (intros Hg; apply Hb in Hg; discriminate Hg).
    split; [split|split].
    + intros _. exists g. split; [reflexivity | now apply Hv].
    + intros _. eexists. reflexivity.
    + intros H. exfalso. apply (H g eq_refl). now apply Hv.
    + discriminate.
Qed.

(** *** Executing steps *)

Section Acting.

Lemma advance_advance (m n : nat) (g : RandomSource) :
  advance n (advance m g) = advance (m + n) g.
Proof. unfold advance. cbn [samples cursor]. f_equal. lia. Qed.

Lemma trials_app p g xs ys :
  trials p g (xs ++ ys) =
  trials p g xs ++ trials p (advance (length xs) g) ys.
Proof.
  unfold trials. rewrite imap_app. f_equal.
  apply imap_ext. intros i y _. unfold trial, advance. cbn [samples cursor].
  now rewrite Nat.add_assoc.
Qed.

Lemma step_random (c : call) (w : World) :
  random (step c w) =
  match c with
  | Act steps => advance (length steps) (random w)
  | _ => random w
  end.
Proof.
  destruct c; cbn [step].
  - now rewrite perceive_goal_world.
  - reflexivity.
  - unfold world_after. now rewrite act_eq.
  - reflexivity.
  - now rewrite get_execution_summary_world.
Qed.

(** With samples of [0, 1) a rate of [1.0] lets every trial succeed and a
    rate of [0.0] lets every trial fail. *)
Lemma trials_certain (sure : bool) g steps :
  unit_samples g ->
  Forall (fun r => r.2 = sure)
         (trials (clamp (Py.Fin (if sure then 1 else 0))) g steps).
Proof.
  intros Hg. apply Forall_forall. intros r Hr.
  apply list_elem_of_lookup in Hr as [i Hi]. unfold trials in Hi.
  rewrite list_lookup_imap in Hi.
  destruct (steps !! i) as [step|]; [|discriminate Hi].
  injection Hi as <-. unfold trial. cbn [snd].
  destruct (Hg (cursor g + i)%nat) as [H0 H1]. destruct sure.
  - rewrite clamp_above by apply Qle_refl. now apply float_lt_Fin.
  - rewrite clamp_below by apply Qle_refl. now apply float_lt_Fin_false.
Qed.

End Acting.

(** X4: executing a list of steps in one call of [act] or in two calls, on
    its two halves, is the same: the results of the two calls, put end to
    end, are the results of the one call, and the world is left the same. *)
Theorem act_app (xs ys : list Py.str) (w : World) :
  act (xs ++ ys) w =
  (results1 ← act xs; results2 ← act ys; mret (results1 ++ results2)) w.
Proof.
  unfold mbind, M_bind, mret, M_ret. rewrite !act_eq. cbn beta iota zeta.
  cbn [self random history success_rate].
  rewrite trials_app, length_app, advance_advance, app_assoc. reflexivity.
Qed.

(** X5: the outcome of a step is monotone in the success probability: with
    the same samples, a step that succeeds for an instance of rate [p]
    succeeds for an instance of any rate [p' >= p]. *)
Theorem act_monotone_in_rate (steps : list Py.str) (w w' : World) (p p' : Q)
    (i : nat) (step : Py.str) :
  success_rate (self w) = Py.Fin p ->
  success_rate (self w') = Py.Fin p' ->
  random w' = random w ->
  (p <= p')%Q ->
  forall results results',
    outcome (act steps) w = Return results ->
    outcome (act steps) w' = Return results' ->
    results !! i = Some (step, true) ->
    results' !! i = Some (step, true).
Proof.
  intros Hp Hp' Hg Hle results results'. unfold outcome.
  rewrite !act_eq. cbn [fst]. rewrite Hp, Hp', Hg.
  intros [= <-] [= <-]. unfold trials. rewrite !list_lookup_imap.
  destruct (steps !! i) as [s|]; [|discriminate].
  cbn [fmap option_fmap option_map]. unfold trial.
  intros [= -> Hlt]. do 2 f_equal.
  apply float_lt_Fin. apply float_lt_Fin in Hlt.
  eapply Qlt_le_trans; eassumption.
Qed.

Lemma act_monotone_in_rate_witness :
  [ (Py.lit "a", true); (Py.lit "b", true) ] !! 1%nat
  = Some (Py.lit "b", true).
Proof.
  apply (act_monotone_in_rate
           [Py.lit "a"; Py.lit "b"]
           (mkWorld (mkPlanningAgent [] (Py.Fin (1 # 2)))
                    (mkRandomSource (fun _ => 1 # 4) 0))
           (mkWorld (mkPlanningAgent [] (Py.Fin (9 # 10)))
                    (mkRandomSource (fun _ => 1 # 4) 0))
           (1 # 2) (9 # 10) 1%nat (Py.lit "b")
           eq_refl eq_refl eq_refl ltac:(discriminate)
           [ (Py.lit "a", true); (Py.lit "b", true) ]
           [ (Py.lit "a", true); (Py.lit "b", true) ]
           eq_refl eq_refl eq_refl).
Defined.

(** *** Sequences of calls *)

Section Runs.

Lemma run_cons (c : call) (cs : list call) (w : World) :
  run (c :: cs) w = run cs (step c w).
Proof. reflexivity. Qed.

Lemma sum_successes_app (xs ys : list (Py.str * bool)) :
  sum_successes (xs ++ ys) = sum_successes xs + sum_successes ys.
Proof.
  induction xs as [|[s b] xs IH]; [reflexivity|].
  cbn [app sum_successes]. rewrite IH. destruct b; lia.
Qed.

Lemma retries_of_app (xs ys : list (Py.str * bool)) :
  retries_of (xs ++ ys) = retries_of xs ++ retries_of ys.
Proof.
  induction xs as [|[s b] xs IH]; [reflexivity|].
  cbn [app retries_of]. rewrite IH. now destruct b.
Qed.

(** Every entry is counted once: as a success or as a retry. *)
Lemma successes_plus_retries (xs : list (Py.str * bool)) :
  sum_successes xs + len (retries_of xs) = len xs.
Proof.
  unfold len. induction xs as [|[s b] xs IH]; [reflexivity|].
  cbn [sum_successes retries_of]. destruct b; cbn [negb length]; lia.
Qed.

Lemma sum_successes_bounds (xs : list (Py.str * bool)) :
  0 <= sum_successes xs <= len xs.
Proof.
  pose proof (successes_plus_retries xs). unfold len in *.
  assert (0 <= sum_successes xs).
  { clear. induction xs as [|[s b] xs IH]; cbn [sum_successes]; [lia|].
    destruct b; lia. }
  lia.
Qed.

Lemma sum_successes_all (sure : bool) (xs : list (Py.str * bool)) :
  Forall (fun r => r.2 = sure) xs ->
  sum_successes xs = if sure then len xs else 0.
Proof.
  unfold len. induction 1 as [|[s b] xs Hb _ IH]; [now destruct sure|].
  cbn [snd] in Hb. subst b. cbn [sum_successes length]. rewrite IH.
  destruct sure; lia.
Qed.

(** The fields of the summary, read off the log. *)
Lemma summary_fields (w : World) :
  exists s,
    get_execution_summary w = (Return s, w) /\
    total s = len (history (self w)) /\
    successful s = sum_successes (history (self w)) /\
    failed s = len (history (self w)) - sum_successes (history (self w)) /\
    (0 < len (history (self w)) ->
     summary_success_rate s =
       truediv (sum_successes (history (self w))) (len (history (self w)))) /\
    (history (self w) = [] -> summary_success_rate s = Py.Fin 0).
Proof.
  unfold get_execution_summary, mbind, M_bind, get_history.
  destruct (history (self w)) as [|r h]; eexists; (split; [reflexivity|]).
  - cbn. repeat split; lia.
  - cbn [total successful failed summary_success_rate].
    assert (Hpos : 0 < len (r :: h)) by (unfold len; cbn [length]; lia).
    apply Z.gtb_lt in Hpos as ->. repeat split. discriminate.
Qed.

End Runs.

(** X6: the generator is drawn from once per logged entry: along every
    sequence of calls the cursor of the generator advances by exactly the
    number of entries added to the log, the samples to come are the same,
    and the stored success probability never changes. *)
Theorem run_one_draw_per_entry (cs : list call) (w : World) :
  (cursor (random (run cs w)) + length (history (self w)) =
   cursor (random w) + length (history (self (run cs w))))%nat /\
  samples (random (run cs w)) = samples (random w) /\
  success_rate (self (run cs w)) = success_rate (self w).
Proof.
  revert w. induction cs as [|c cs IH]; intros w; [repeat split|].
  rewrite run_cons. destruct (IH (step c w)) as (Hc & Hs & Hr).
  rewrite Hs, Hr, step_success_rate. rewrite step_random, step_history in *.
  destruct c; repeat split; try assumption.
  rewrite length_app, trials_length in Hc. cbn [advance cursor] in Hc. lia.
Qed.

(** X7: a sequence of calls logs what one call of [act] on all the steps
    would: after any sequence of calls the log is the log before followed
    by the trials of the steps handed to [act], in call order, each decided
    by the next sample of the generator; the steps of the log are those
    steps, and the generator has advanced by their number. *)
Theorem run_history_trials (cs : list call) (w : World) :
  history (self (run cs w)) =
    history (self w)
    ++ trials (success_rate (self w)) (random w) (acted_steps cs) /\
  (history (self (run cs w))).*1 = (history (self w)).*1 ++ acted_steps cs /\
  random (run cs w) = advance (length (acted_steps cs)) (random w).
Proof.
  assert (H : history (self (run cs w)) =
              history (self w)
              ++ trials (success_rate (self w)) (random w) (acted_steps cs) /\
              random (run cs w) = advance (length (acted_steps cs)) (random w)).
  { revert w. induction cs as [|c cs IH]; intros w.
    - cbn. now rewrite app_nil_r, advance_0.
    - rewrite run_cons. destruct (IH (step c w)) as [Hh Hg].
      rewrite Hh, Hg, step_success_rate, step_random, step_history.
      unfold acted_steps. cbn [mbind list_bind]. fold (acted_steps cs).
      destruct c; try (split; reflexivity).
      rewrite trials_app, length_app, advance_advance, app_assoc.
      split; reflexivity. }
  destruct H as [Hh Hg]. split; [exact Hh|]. split; [|exact Hg].
  now rewrite Hh, fmap_app, trials_fst.
Qed.

(** X8: with samples of [0, 1), an instance built with probability [1.0]
    never logs a failure and one built with [0.0] never logs a success,
    whatever is called on it: its summary always has [failed = 0] and
    [successful = total], respectively [successful = 0] and
    [failed = total]. *)
Theorem certain_instance_summary (sure : bool) (g : RandomSource)
    (cs : list call) :
  unit_samples g ->
  let w := run cs (mkWorld (__init__ (Some (Py.Fin (if sure then 1 else 0)))) g) in
  Forall (fun r => r.2 = sure) (history (self w)) /\
  exists s,
    outcome get_execution_summary w = Return s /\
    successful s = (if sure then total s else 0) /\
    failed s = (if sure then 0 else total s).
Proof.
  intros Hg w.
  assert (Hall : Forall (fun r => r.2 = sure) (history (self w))).
  { subst w.
    set (w0 := mkWorld (__init__ (Some (Py.Fin (if sure then 1 else 0)))) g).
    assert (H0 : Forall (fun r => r.2 = sure) (history (self w0))) by constructor.
    assert (Hr : success_rate (self w0) = clamp (Py.Fin (if sure then 1 else 0)))
      by reflexivity.
    assert (Hu : unit_samples (random w0)) by exact Hg.
    clearbody w0. revert w0 H0 Hr Hu.
    induction cs as [|c cs IH]; intros w0 H0 Hr Hu; [exact H0|].
    rewrite run_cons. apply IH.
    - rewrite step_history. destruct c; try exact H0.
      apply Forall_app. split; [exact H0|]. rewrite Hr.
      now apply trials_certain.
    - now rewrite step_success_rate.
    - rewrite step_random. destruct c; exact Hu. }
  split; [exact Hall|].
  destruct (summary_fields w) as (s & Hs & Ht & Hsucc & Hfail & _).
  exists s. unfold outcome. rewrite Hs. split; [reflexivity|].
  rewrite Hsucc, Hfail, Ht, (sum_successes_all sure _ Hall).
  destruct sure; split; lia.
Qed.

Lemma certain_instance_summary_witness :
  exists s,
    outcome get_execution_summary
            (run [Act [Py.lit "a"]; Plan (Py.lit "x"); Act [Py.lit "b"; Py.lit "c"]]
                 (mkWorld (__init__ (Some (Py.Fin 0)))
                          (mkRandomSource (fun _ => 0%Q) 0)))
    = Return s /\
    successful s = 0 /\ failed s = total s.
Proof.
  apply (certain_instance_summary
           false (mkRandomSource (fun _ => 0%Q) 0)
           [Act [Py.lit "a"]; Plan (Py.lit "x"); Act [Py.lit "b"; Py.lit "c"]]).
  intros i. split; [discriminate | reflexivity].
Defined.

(** *** Retries and summaries *)

Section Summaries.

Lemma retries_of_length (xs : list (Py.str * bool)) :
  (length (retries_of xs) <= length xs)%nat.
Proof.
  pose proof (successes_plus_retries xs) as H.
  pose proof (sum_successes_bounds xs). unfold len in *. lia.
Qed.

Lemma retries_of_nil (xs : list (Py.str * bool)) :
  retries_of xs = [] <-> Forall has_succeeded xs.
Proof.
  induction xs as [|[s b] xs IH]; [split; [constructor | reflexivity]|].
  cbn [retries_of]. destruct b; cbn [negb].
  - rewrite IH. split; [now constructor | now inversion 1].
  - split; [discriminate | inversion 1 as [|? ? Hb]; discriminate Hb].
Qed.

Lemma retries_of_all (xs : list (Py.str * bool)) :
  retries_of xs = xs.*1 <-> Forall has_failed xs.
Proof.
  induction xs as [|[s b] xs IH]; [split; [constructor | reflexivity]|].
  cbn [retries_of fmap list_fmap fst]. destruct b; cbn [negb].
  - split.
    + intros H. apply (f_equal length) in H. cbn [length] in H.
      rewrite length_fmap in H. pose proof (retries_of_length xs). lia.
    + inversion 1 as [|? ? Hb]; discriminate Hb.
  - split.
    + intros [= H]. constructor; [reflexivity | now apply IH].
    + inversion 1; subst. f_equal. now apply IH.
Qed.

Lemma truediv_unit (a b : Z) :
  0 <= a <= b -> 0 < b ->
  exists q, truediv a b = Py.Fin q /\ (0 <= q)%Q /\ (q <= 1)%Q.
Proof.
  intros Ha Hb.
  destruct (truediv_near a b Ha Hb) as (q & Hq & H0 & H1 & _).
  exists q. repeat split; assumption.
Qed.

End Summaries.

(** X9: [reflect] asks for no retry exactly when every result succeeded,
    and for a retry of every step, in order, exactly when every result
    failed; it never returns more steps than it was given results. *)
Theorem reflect_extremes (results : list (Py.str * bool)) (w : World) :
  (outcome (reflect results) w = Return [] <-> Forall has_succeeded results) /\
  (outcome (reflect results) w = Return results.*1 <->
   Forall has_failed results) /\
  (forall retries, outcome (reflect results) w = Return retries ->
     (length retries <= length results)%nat).
Proof.
  unfold outcome, reflect. cbn [mret M_ret fst]. split; [|split].
  - rewrite <- retries_of_nil. split; [now intros [= ->] | now intros ->].
  - rewrite <- retries_of_all. split; [now intros [= ->] | now intros ->].
  - intros retries [= <-]. apply retries_of_length.
Qed.

(** X10: the [failed] field of the summary is the number of steps that
    [reflect] would pick from the log, and [successful] plus that number
    is [total]. *)
Theorem summary_failed_counts_retries (w : World) :
  exists s retries,
    outcome get_execution_summary w = Return s /\
    outcome (reflect (history (self w))) w = Return retries /\
    failed s = len retries /\
    successful s + len retries = total s.
Proof.
  destruct (summary_fields w) as (s & Hs & Ht & Hsucc & Hfail & _).
  exists s, (retries_of (history (self w))). unfold outcome. rewrite Hs.
  split; [reflexivity|]. split; [reflexivity|].
  pose proof (successes_plus_retries (history (self w))). lia.
Qed.

(** X11: the summary is always well formed: [successful] and [failed] lie
    between [0] and [total], and the rate is a real number of [0, 1]. *)
Theorem summary_bounds (w : World) :
  exists s q,
    outcome get_execution_summary w = Return s /\
    0 <= successful s <= total s /\
    0 <= failed s <= total s /\
    summary_success_rate s = Py.Fin q /\ (0 <= q)%Q /\ (q <= 1)%Q.
Proof.
  destruct (summary_fields w) as (s & Hs & Ht & Hsucc & Hfail & Hrate & Hempty).
  pose proof (sum_successes_bounds (history (self w))) as Hb.
  destruct (history (self w)) as [|r h] eqn:Hh.
  - exists s, 0%Q. unfold outcome. rewrite Hs.
    split; [reflexivity|]. rewrite Hsucc, Hfail, Ht, (Hempty eq_refl).
    cbn. repeat split; try lia; discriminate.
  - assert (Hpos : 0 < len (r :: h)) by (unfold len; cbn [length]; lia).
    destruct (truediv_unit _ _ Hb Hpos) as (q & Hq & H0 & H1).
    exists s, q. unfold outcome. rewrite Hs.
    split; [reflexivity|]. rewrite Hsucc, Hfail, Ht, (Hrate Hpos).
    repeat split; try lia; assumption.
Qed.

(** X12: a call of [act] moves the summary by what it returns: [total]
    grows by the number of steps, [successful] by the number of results
    that succeeded and [failed] by the number of steps [reflect] picks from
    the results. *)
Theorem summary_after_act (steps : list Py.str) (w : World) :
  exists s results s',
    outcome get_execution_summary w = Return s /\
    outcome (act steps) w = Return results /\
    outcome get_execution_summary (world_after (act steps) w) = Return s' /\
    total s' = total s + len steps /\
    successful s' = successful s + sum_successes results /\
    failed s' = failed s + len (retries_of results).
Proof.
  destruct (summary_fields w) as (s & Hs & Ht & Hsucc & Hfail & _).
  destruct (summary_fields (world_after (act steps) w))
    as (s' & Hs' & Ht' & Hsucc' & Hfail' & _).
  exists s, (trials (success_rate (self w)) (random w) steps), s'.
  unfold outcome. rewrite Hs, Hs'. unfold world_after in *.
  rewrite act_eq in *. cbn [fst snd self history] in *.
  split; [reflexivity|]. split; [reflexivity|]. split; [reflexivity|].
  rewrite Ht', Hsucc', Hfail', Ht, Hsucc, Hfail, sum_successes_app.
  set (rs := trials _ _ steps).
  pose proof (successes_plus_retries rs) as Hrs.
  assert (Hlen : len rs = len steps)
    by (unfold len, rs; now rewrite trials_length).
  unfold len in *. rewrite length_app. lia.
Qed.

(** *** Construction, planning and the whole pipeline *)

Section Pipeline.

(** The three shapes of a stored rate. *)
Lemma clamp_cases (f : Py.float) :
  clamp f = Py.Fin 0 \/ clamp f = Py.Fin 1 \/
  exists x, clamp f = Py.Fin x /\ f = Py.Fin x /\ (0 < x)%Q /\ (x < 1)%Q.
Proof.
  destruct f as [x| | |]; [|right; left; reflexivity | left; reflexivity
                            |right; left; reflexivity].
  destruct (Qlt_le_dec 0 x) as [H0|H0]; [destruct (Qlt_le_dec x 1) as [H1|H1]|].
  - right; right. exists x. now rewrite clamp_inside.
  - right; left. now apply clamp_above.
  - left. now apply clamp_below.
Qed.

Lemma clamp_clamp (f : Py.float) : clamp (clamp f) = clamp f.
Proof.
  destruct (clamp_cases f) as [H|[H|(x & H & _ & H0 & H1)]]; rewrite H.
  - reflexivity.
  - reflexivity.
  - now apply clamp_inside.
Qed.

End Pipeline.

(** X13: whatever float is handed to the constructor, NaN and the
    infinities included, the stored success probability of the instance is
    at all times a real number of [0, 1]; NaN and plus infinity are stored
    as [1.0] and minus infinity as [0.0]. *)
Theorem success_rate_is_probability (arg : option Py.float) (w : World) :
  reachable arg w ->
  exists p,
    success_rate (self w) = Py.Fin p /\ (0 <= p)%Q /\ (p <= 1)%Q /\
    match arg with
    | Some Py.NaN | Some Py.PosInf => p = 1%Q
    | Some Py.NegInf => p = 0%Q
    | _ => True
    end.
Proof.
  intros Hw. rewrite (reachable_success_rate arg w Hw).
  destruct arg as [[x| | |]|]; cbn [default from_option id];
    try (eexists; repeat split; discriminate).
  destruct (clamp_unit (Py.Fin x)) as (q & Hq & H0 & H1).
  exists q. now rewrite Hq.
Qed.

Lemma success_rate_is_probability_witness :
  exists p,
    success_rate (self (step (Act [Py.lit "a"])
                             (mkWorld (__init__ (Some Py.NaN))
                                      (mkRandomSource (fun _ => 1 # 2) 0))))
    = Py.Fin p /\ p = 1%Q.
Proof.
  destruct (success_rate_is_probability
              (Some Py.NaN)
              (step (Act [Py.lit "a"])
                    (mkWorld (__init__ (Some Py.NaN))
                             (mkRandomSource (fun _ => 1 # 2) 0)))
              (reachable_call _ _ _ (reachable_new _ _)))
    as (p & Hp & _ & _ & H1).
  exists p. split; assumption.
Defined.

(** X14: the stored success probability is a fixed point of the
    constructor: an instance built from the stored probability of another
    instance stores the same probability. *)
Theorem init_success_rate_idempotent (arg : option Py.float) :
  success_rate (__init__ (Some (success_rate (__init__ arg)))) =
  success_rate (__init__ arg).
Proof. apply clamp_clamp. Qed.

(** X15: the three steps of a plan are pairwise distinct, whatever the
    goal, and the plan determines the goal: two goals with the same plan
    are the same goal. *)
Theorem plan_steps_distinct (goal : Py.str) (w : World) :
  exists steps,
    outcome (plan goal) w = Return steps /\
    NoDup steps /\
    (forall goal' w', outcome (plan goal') w' = Return steps -> goal' = goal).
Proof.
  eexists. split; [reflexivity|]. split.
  - assert (Hhead : forall a b : Py.str, head a <> head b -> a <> b)
      by (intros a b H ->; now apply H).
    repeat (apply NoDup_cons; split); try apply NoDup_nil_2;
      rewrite ?not_elem_of_cons; repeat split;
      try apply not_elem_of_nil; apply Hhead; vm_compute; discriminate.
  - intros goal' w'. unfold outcome, plan. cbn [mret M_ret fst].
    intros [= H _ _]. exact H.
Qed.

(** X16: the pipeline of the script, on any goal.  When the goal is
    rejected, the [ValueError] of [perceive_goal] comes out and nothing has
    happened: no sample is drawn and nothing is logged.  When it is
    accepted as [g], the pipeline returns the three results of the plan of
    [g] in order, the steps among them that failed, and a summary whose
    [total] is three more than the log held before; the log has grown by
    the three results and the generator by three samples. *)
Theorem main_pipeline (goal : Py.object) (w : World) :
  match outcome (perceive_goal goal) w with
  | Raise e => e = goal_error /\ main goal w = (Raise goal_error, w)
  | Return g =>
      exists results s w',
        main goal w = (Return (results, retries_of results, s), w') /\
        results.*1 = [ Py.lit "Research " ++ g;
                       Py.lit "Draft outline for " ++ g;
                       Py.lit "Create final output for " ++ g ] /\
        history (self w') = history (self w) ++ results /\
        random w' = advance 3 (random w) /\
        total s = len (history (self w)) + 3 /\
        failed s = len (history (self w)) - sum_successes (history (self w))
                   + len (retries_of results)
  end.
Proof.
  unfold outcome.
  assert (Hraise : perceive_goal goal w = (Raise goal_error, w) ->
                   main goal w = (Raise goal_error, w)).
  { intros H. unfold main, mbind, M_bind. now rewrite H. }
  destruct goal as [|b|z|f|g0];
    try (rewrite perceive_goal_not_Str by reflexivity; cbn [fst];
         split; [reflexivity|]; apply Hraise;
         now apply perceive_goal_not_Str).
  pose proof (perceive_goal_Str g0 w) as Hp. rewrite Hp. cbn [fst].
  destruct (Py.strip g0) as [|c g] eqn:Hs.
  - split; [reflexivity | now apply Hraise].
  - set (steps := [ Py.lit "Research " ++ c :: g;
                    Py.lit "Draft outline for " ++ c :: g;
                    Py.lit "Create final output for " ++ c :: g ]).
    set (results := trials (success_rate (self w)) (random w) steps).
    set (w1 := world_after (act steps) w).
    assert (Hact : act steps w = (Return results, w1))
      by (unfold w1, world_after; now rewrite act_eq).
    assert (Hh : history (self w1) = history (self w) ++ results)
      by (unfold w1, world_after; now rewrite act_eq).
    assert (Hg : random w1 = advance 3 (random w))
      by (unfold w1, world_after; now rewrite act_eq).
    destruct (summary_fields w1) as (s & Hsum & Ht & Hsucc & Hfail & _).
    exists results, s, w1.
    split; [|split; [apply trials_fst|split; [exact Hh|split; [exact Hg|]]]].
    + unfold main, mbind, M_bind. rewrite Hp. cbn beta iota.
      unfold plan, reflect. cbn [mret M_ret]. cbn beta iota. fold steps.
      rewrite Hact. cbn beta iota zeta. rewrite Hsum. reflexivity.
    + rewrite Ht, Hfail, Hh, sum_successes_app.
      pose proof (successes_plus_retries results) as Hrs.
      assert (Hlen : len results = 3)
        by (unfold len, results; now rewrite trials_length).
      unfold len in *. rewrite length_app. split; lia.
Qed.
